(** * Log parsing in the geometry-optimization notebook

    A shallow embedding of the two parsing functions of
    [qm_lab3_geometry_optimization.ipynb], [plot_R] and [plot_energy],
    together with the Python built-ins they call, and the properties of
    the extractors proved on that embedding.

    Text is a [string] of code points below 256; a file is the decoded
    text stored under a path. *)

From Stdlib Require Import String Ascii List ZArith NArith Bool Lia DecimalString.
From Stdlib Require Import DecimalPos DecimalZ.
Import ListNotations.

Local Open Scope string_scope.
Local Open Scope Z_scope.

(** ** Python built-ins used by the notebook *)

Module Py.

(** The exceptions the two functions can raise. *)
Inductive exn : Set :=
| FileNotFoundError
| IndexError
| ValueError.

(** A computation either returns a value or raises. *)
Inductive result (A : Type) : Type :=
| Ok (a : A)
| Raise (e : exn).
Arguments Ok {A} a.
Arguments Raise {A} e.

Definition bind {A B : Type} (m : result A) (k : A -> result B) : result B :=
  match m with
  | Ok a => k a
  | Raise e => Raise e
  end.

(** [str.isspace] on one character: the code points below 256 that
    CPython's [_PyUnicode_IsWhitespace] accepts. *)
Definition isspace (c : ascii) : bool :=
  let n := N_of_ascii c in
  ((9 <=? n) && (n <=? 13) || (28 <=? n) && (n <=? 32)
   || (n =? 133) || (n =? 160))%N.

(** [s.lstrip()], [s.rstrip()] and [s.strip()] without argument. *)
Fixpoint lstrip (s : string) : string :=
  match s with
  | EmptyString => EmptyString
  | String c s' => if isspace c then lstrip s' else s
  end.

Fixpoint rstrip (s : string) : string :=
  match s with
  | EmptyString => EmptyString
  | String c s' =>
      match rstrip s' with
      | EmptyString => if isspace c then EmptyString else String c EmptyString
      | r => String c r
      end
  end.

Definition strip (s : string) : string := lstrip (rstrip s).

(** Does [s] begin with a character of a field? *)
Definition starts_field (s : string) : bool :=
  match s with
  | EmptyString => false
  | String c _ => negb (isspace c)
  end.

(** [s.split()] without argument: the maximal runs of non-whitespace
    characters, in order; never an empty field. *)
Fixpoint split (s : string) : list string :=
  match s with
  | EmptyString => []
  | String c s' =>
      if isspace c then split s'
      else if starts_field s' then
        match split s' with
        | w :: ws => String c w :: ws
        | [] => [String c EmptyString]
        end
      else String c EmptyString :: split s'
  end.

(** [s.startswith(p)]. *)
Definition startswith (s p : string) : bool := String.prefix p s.

(** [s.find(sub)]: the lowest index at which [sub] occurs in [s], or -1. *)
Fixpoint find_from (i : Z) (s sub : string) : Z :=
  if String.prefix sub s then i
  else match s with
       | EmptyString => -1
       | String _ s' => find_from (i + 1) s' sub
       end.

Definition find (s sub : string) : Z := find_from 0 s sub.

(** [str(n)] for an integer. *)
Definition str (n : Z) : string := NilZero.string_of_int (Z.to_int n).

(** [xs[i]] for a non-negative constant index. *)
Definition getitem {A : Type} (xs : list A) (i : nat) : result A :=
  match nth_error xs i with
  | Some x => Ok x
  | None => Raise IndexError
  end.

(** Put [c] in front of the first line of [ls]. *)
Definition cons_line (c : ascii) (ls : list string) : list string :=
  match ls with
  | [] => [String c EmptyString]
  | l :: ls' => String c l :: ls'
  end.

Definition LF : ascii := ascii_of_nat 10.
Definition CR : ascii := ascii_of_nat 13.

(** The lines that iterating over a file opened in text mode yields:
    each line keeps its terminator, and the terminators CR LF and CR
    are translated to LF (universal newlines). *)
Fixpoint file_lines (text : string) : list string :=
  match text with
  | EmptyString => []
  | String c text' =>
      if Ascii.eqb c LF then String LF EmptyString :: file_lines text'
      else if Ascii.eqb c CR then
        match text' with
        | String c' _ =>
            if Ascii.eqb c' LF then file_lines text'
            else String LF EmptyString :: file_lines text'
        | EmptyString => [String LF EmptyString]
        end
      else
        match text' with
        | EmptyString => [String c EmptyString]
        | _ => cons_line c (file_lines text')
        end
  end.

(** The files that exist: the text stored under each path. *)
Definition filesystem : Type := string -> option string.

(** [open(path)] for reading: the text of the file, or FileNotFoundError. *)
Definition open (fs : filesystem) (path : string) : result string :=
  match fs path with
  | Some text => Ok text
  | None => Raise FileNotFoundError
  end.

(** A list comprehension [[elt x for x in xs if cond x]]: for each
    element in order the condition is evaluated, then the expression;
    the first exception ends the comprehension. *)
Fixpoint list_comp {A B : Type} (elt : A -> result B) (cond : A -> result bool)
    (xs : list A) : result (list B) :=
  match xs with
  | [] => Ok []
  | x :: xs' =>
      bind (cond x) (fun keep =>
        if keep then
          bind (elt x) (fun y =>
            bind (list_comp elt cond xs') (fun ys => Ok (y :: ys)))
        else list_comp elt cond xs')
  end.

End Py.

Import Py.

Notation "x <- m ;; k" := (bind m (fun x => k))
  (at level 61, m at next level, right associativity).

(** ** The notebook *)

(** What the two functions read besides their arguments: the global
    variable [molecule_name] and the files on disk. *)
Record notebook : Type := {
  molecule_name : string;
  files : filesystem
}.

(** The path both functions open. *)
Definition log_path (nb : notebook) : string :=
  molecule_name nb ++ "_geometry_optimization.dat".

Section Extractors.

(** The built-in [float] applied to a string: [None] stands for the
    ValueError it raises on text that is no float literal. *)
Variable float : Type.
Variable float_of_string : string -> option float.

Definition to_float (s : string) : result float :=
  match float_of_string s with
  | Some x => Ok x
  | None => Raise ValueError
  end.

(** ['R(' + str(a) + ',' + str(b) + ')'] *)
Definition pair_notation (a b : Z) : string :=
  "R(" ++ str a ++ "," ++ str b ++ ")".

(** The condition of the comprehension in [plot_R]:
    [line.find(pair_notation) > 1 and
     line.strip().split()[1].startswith(pair_notation)];
    [and] evaluates its right operand only when the left one holds. *)
Definition R_pair_cond (pair_notation line : string) : result bool :=
  if 1 <? find line pair_notation then
    field <- getitem (split (strip line)) 1 ;;
    Ok (startswith field pair_notation)
  else Ok false.

(** [rows_with_R_pairs = [line.split() for line in f if ...]] *)
Definition rows_with_R_pairs (pair_notation : string) (f : list string)
  : result (list (list string)) :=
  list_comp (fun line => Ok (split line)) (R_pair_cond pair_notation) f.

(** [for item in rows_with_R_pairs:
       bond_distances.append(float(item[6]))] *)
Fixpoint append_distances (rows : list (list string)) (bond_distances : list float)
  : result (list float) :=
  match rows with
  | [] => Ok bond_distances
  | item :: rows' =>
      field <- getitem item 6 ;;
      x <- to_float field ;;
      append_distances rows' (bond_distances ++ [x])
  end.

(** What [plot_R] does with the lines of the opened file. *)
Definition plot_R_lines (pair_notation : string) (f : list string)
  : result (list float) :=
  rows <- rows_with_R_pairs pair_notation f ;;
  row0 <- getitem rows 0 ;;
  field <- getitem row0 3 ;;
  x0 <- to_float field ;;
  append_distances rows ([] ++ [x0]).

Definition plot_R (nb : notebook) (a b : Z) : result (list float) :=
  text <- open (files nb) (log_path nb) ;;
  plot_R_lines (pair_notation a b) (file_lines text).

(** The condition and the expression of the comprehension in
    [plot_energy]: [line.strip().startswith('Current energy')], which
    never raises, and [float(line.split()[3])]. *)
Definition energy_match (line : string) : bool :=
  startswith (strip line) "Current energy".

Definition energy_cond (line : string) : result bool :=
  Ok (energy_match line).

Definition energy_value (line : string) : result float :=
  field <- getitem (split line) 3 ;;
  to_float field.

(** What [plot_energy] does with the lines of the opened file. *)
Definition plot_energy_lines (f : list string) : result (list float) :=
  list_comp energy_value energy_cond f.

Definition plot_energy (nb : notebook) : result (list float) :=
  text <- open (files nb) (log_path nb) ;;
  plot_energy_lines (file_lines text).

(** *** Vocabulary of the properties *)

(** A line is kept by [plot_R] when its condition returns [True]. *)
Definition R_match (pair_notation line : string) : bool :=
  match R_pair_cond pair_notation line with
  | Ok true => true
  | _ => false
  end.

(** The float at a whitespace field of a line: [float(line.split()[i])]. *)
Definition float_field (i : nat) (line : string) : result float :=
  field <- getitem (split line) i ;;
  to_float field.

(** [xs] are the floats at field [i] of the lines [ls], line by line. *)
Definition floats_at (i : nat) (ls : list string) (xs : list float) : Prop :=
  Forall2 (fun line x => float_field i line = Ok x) ls xs.

End Extractors.

Arguments to_float {float} float_of_string s.
Arguments append_distances {float} float_of_string rows bond_distances.
Arguments plot_R_lines {float} float_of_string pair_notation f.
Arguments plot_R {float} float_of_string nb a b.
Arguments energy_value {float} float_of_string line.
Arguments plot_energy_lines {float} float_of_string f.
Arguments plot_energy {float} float_of_string nb.
Arguments float_field {float} float_of_string i line.
Arguments floats_at {float} float_of_string i ls xs.

(** The match criterion as the specification words it: the token occurs
    somewhere in the line, and the second whitespace field of the
    stripped line starts with the token. *)
Definition second_field_startswith (pair_notation line : string) : bool :=
  match nth_error (split (strip line)) 1 with
  | Some field => startswith field pair_notation
  | None => false
  end.

Definition spec_R_match (pair_notation line : string) : bool :=
  (0 <=? find line pair_notation) && second_field_startswith pair_notation line.

(** The shape of a log on which the condition of [plot_R] raises on no
    line: a line that holds the token from character index 2 on has at
    least two whitespace fields. *)
Definition R_cond_safe (tok : string) (lines : list string) : Prop :=
  forall line, In line lines ->
    1 < find line tok -> (2 <= length (split line))%nat.

(** ** The cells around the extractors *)



(** What a plotting cell hands to matplotlib: the points of the scatter
    plot, the limits of the y axis, the labels and the title.  The calls
    to matplotlib themselves are not part of the model. *)
Record plot_data (float : Type) : Type := {
  points_x : list Z;
  points_y : list float;
  ylim_top : float;
  ylim_bottom : float;
  xlabel : string;
  ylabel : string;
  title : string
}.
Arguments points_x {float} p.
Arguments points_y {float} p.
Arguments ylim_top {float} p.
Arguments ylim_bottom {float} p.
Arguments xlabel {float} p.
Arguments ylabel {float} p.
Arguments title {float} p.

Section PlotCells.

Variable float : Type.
Variable float_of_string : string -> option float.

(** Float arithmetic and comparison ([+], [-], [*], [>], [<]) and the
    literal [0.15]. *)
Variable fadd fsub fmul : float -> float -> float.
Variable fgt flt : float -> float -> bool.
Variable f015 : float.

(** [max(xs)] and [min(xs)]: the first item is the candidate, a later
    item replaces it when it compares greater (smaller); ValueError on
    an empty list. *)
Definition py_max (xs : list float) : result float :=
  match xs with
  | [] => Raise ValueError
  | x :: rest =>
      Ok (fold_left (fun best item => if fgt item best then item else best) rest x)
  end.

Definition py_min (xs : list float) : result float :=
  match xs with
  | [] => Raise ValueError
  | x :: rest =>
      Ok (fold_left (fun best item => if flt item best then item else best) rest x)
  end.

(** [np.arange(n)] *)
Definition arange (n : nat) : list Z := map Z.of_nat (seq 0 n).

(** The statements both plotting cells run on the extracted values:
    [value_range = max(values) - min(values)], then the arguments of
    [plt.scatter] and [plt.ylim]. *)
Definition plot_values (values : list float) (y_label plot_title : string)
  : result (plot_data float) :=
  hi <- py_max values ;;
  lo <- py_min values ;;
  let value_range := fsub hi lo in
  let xs := arange (length values) in
  hi' <- py_max values ;;
  let top := fadd hi' (fmul value_range f015) in
  lo' <- py_min values ;;
  let bottom := fsub lo' (fmul value_range f015) in
  Ok {| points_x := xs; points_y := values;
        ylim_top := top; ylim_bottom := bottom;
        xlabel := "iteration"; ylabel := y_label; title := plot_title |}.

(** The cell that plots the C1-C2 distance: [bond_distances = plot_R(1, 2)]
    and the plot of these values. *)
Definition distance_cell (nb : notebook) : result (plot_data float) :=
  bond_distances <- plot_R float_of_string nb 1 2 ;;
  plot_values bond_distances "distance (Angstroms)"
    (molecule_name nb ++ " C-C bond distance").

(** The cell that plots the energies: [energy_values = plot_energy()]
    and the plot of these values. *)
Definition energy_cell (nb : notebook) : result (plot_data float) :=
  energy_values <- plot_energy float_of_string nb ;;
  plot_values energy_values "energy (Hartrees)" (molecule_name nb ++ " energy").

End PlotCells.

Arguments py_max {float} fgt xs.
Arguments py_min {float} flt xs.
Arguments plot_values {float} fadd fsub fmul fgt flt f015 values y_label plot_title.
Arguments distance_cell {float} float_of_string fadd fsub fmul fgt flt f015 nb.
Arguments energy_cell {float} float_of_string fadd fsub fmul fgt flt f015 nb.

(** The text of a log that ends with a line terminator. *)
Definition ends_with_newline (text : string) : Prop :=
  exists body, text = body ++ String LF EmptyString.

(** The lines that [plot_R] tests beyond [find]: the token occurs, and
    first at character index 2 or greater. *)
Definition holds_token (tok line : string) : bool := 1 <? find line tok.

(** The characters [str] writes for an integer: a sign and digits. *)
Definition int_char (c : ascii) : bool :=
  let n := N_of_ascii c in ((n =? 45) || (48 <=? n) && (n <=? 57))%N.

(** Every character of [s] satisfies [p]. *)
Fixpoint string_forall (p : ascii -> bool) (s : string) : bool :=
  match s with
  | EmptyString => true
  | String c s' => p c && string_forall p s'
  end.

(** ** A float literal reader

    An instance of [float_of_string] that follows the grammar of the
    built-in [float] and keeps the exact decimal value of the literal;
    rounding to a binary double is not modelled. *)

Module DecimalFloat.

Inductive t : Set :=
| Finite (negative : bool) (mantissa : N) (exp10 : Z)
| Infinity (negative : bool)
| NaN (negative : bool).

Definition is_digit (c : ascii) : bool :=
  let n := N_of_ascii c in ((48 <=? n) && (n <=? 57))%N.

Definition digit_value (c : ascii) : N := (N_of_ascii c - 48)%N.

Definition is_underscore (c : ascii) : bool := Ascii.eqb c "_"%char.

(** [(["_"] digit)*]: the digits read, without underscores, and the rest. *)
Fixpoint digits_tail (s : string) : string * string :=
  match s with
  | EmptyString => (EmptyString, EmptyString)
  | String c s' =>
      if is_digit c then
        let (ds, rest) := digits_tail s' in (String c ds, rest)
      else if is_underscore c then
        match s' with
        | String c' s'' =>
            if is_digit c' then
              let (ds, rest) := digits_tail s'' in (String c' ds, rest)
            else (EmptyString, s)
        | EmptyString => (EmptyString, s)
        end
      else (EmptyString, s)
  end.

(** [digitpart ::= digit (["_"] digit)*] *)
Definition digitpart (s : string) : option (string * string) :=
  match s with
  | String c s' =>
      if is_digit c then
        let (ds, rest) := digits_tail s' in Some (String c ds, rest)
      else None
  | EmptyString => None
  end.

Definition strip_prefix_char (c : ascii) (s : string) : option string :=
  match s with
  | String c' s' => if Ascii.eqb c c' then Some s' else None
  | EmptyString => None
  end.

(** [number ::= [digitpart] "." digitpart | digitpart ["."]]:
    the integer digits, the fraction digits and the rest. *)
Definition number (s : string) : option (string * string * string) :=
  match digitpart s with
  | Some (int_ds, rest) =>
      match strip_prefix_char "."%char rest with
      | Some rest' =>
          match digitpart rest' with
          | Some (frac_ds, rest'') => Some (int_ds, frac_ds, rest'')
          | None => Some (int_ds, EmptyString, rest')
          end
      | None => Some (int_ds, EmptyString, rest)
      end
  | None =>
      match strip_prefix_char "."%char s with
      | Some rest' =>
          match digitpart rest' with
          | Some (frac_ds, rest'') => Some (EmptyString, frac_ds, rest'')
          | None => None
          end
      | None => None
      end
  end.

(** An optional sign: is it a minus, and the rest. *)
Definition sign (s : string) : bool * string :=
  match s with
  | String c s' =>
      if Ascii.eqb c "-"%char then (true, s')
      else if Ascii.eqb c "+"%char then (false, s')
      else (false, s)
  | EmptyString => (false, s)
  end.

Fixpoint digits_value (acc : N) (ds : string) : N :=
  match ds with
  | EmptyString => acc
  | String c ds' => digits_value (10 * acc + digit_value c)%N ds'
  end.

(** [exponent ::= ("e" | "E") [sign] digitpart], read when present. *)
Definition exponent (s : string) : Z * string :=
  match s with
  | String c s' =>
      if Ascii.eqb c "e"%char || Ascii.eqb c "E"%char then
        let (neg, s'') := sign s' in
        match digitpart s'' with
        | Some (ds, rest) =>
            let e := Z.of_N (digits_value 0 ds) in
            (if neg then - e else e, rest)
        | None => (0, s)
        end
      else (0, s)
  | EmptyString => (0, s)
  end.

Definition lower (c : ascii) : ascii :=
  let n := N_of_ascii c in
  if ((65 <=? n) && (n <=? 90))%N then ascii_of_N (n + 32) else c.

Fixpoint lowercase (s : string) : string :=
  match s with
  | EmptyString => EmptyString
  | String c s' => String (lower c) (lowercase s')
  end.

(** [floatvalue ::= [sign] (floatnumber | infinity | nan)], surrounded
    by optional whitespace. *)
Definition of_string (s : string) : option t :=
  let (neg, body) := sign (strip s) in
  let word := lowercase body in
  if String.eqb word "inf" || String.eqb word "infinity" then Some (Infinity neg)
  else if String.eqb word "nan" then Some (NaN neg)
  else
    match number body with
    | Some (int_ds, frac_ds, rest) =>
        let (e, rest') := exponent rest in
        match rest' with
        | EmptyString =>
            Some (Finite neg (digits_value 0 (int_ds ++ frac_ds))
                    (e - Z.of_nat (String.length frac_ds)))
        | _ => None
        end
    | None => None
    end.

(** Exact decimal arithmetic on the values read, for running the
    plotting cells; a value is [(-1)^negative * mantissa * 10^exp10]. *)
Definition signed (negative : bool) (mantissa : N) : Z :=
  if negative then - Z.of_N mantissa else Z.of_N mantissa.

Definition of_signed (z e : Z) : t := Finite (z <? 0) (Z.abs_N z) e.

Definition opp (x : t) : t :=
  match x with
  | Finite n m e => Finite (negb n) m e
  | Infinity n => Infinity (negb n)
  | NaN n => NaN (negb n)
  end.

Definition add (x y : t) : t :=
  match x, y with
  | NaN n, _ => NaN n
  | _, NaN n => NaN n
  | Infinity n1, Infinity n2 => if Bool.eqb n1 n2 then Infinity n1 else NaN true
  | Infinity n, Finite _ _ _ => Infinity n
  | Finite _ _ _, Infinity n => Infinity n
  | Finite n1 m1 e1, Finite n2 m2 e2 =>
      let e := Z.min e1 e2 in
      of_signed (signed n1 m1 * 10 ^ (e1 - e) + signed n2 m2 * 10 ^ (e2 - e)) e
  end.

Definition sub (x y : t) : t := add x (opp y).

Definition mul (x y : t) : t :=
  match x, y with
  | NaN n, _ => NaN n
  | _, NaN n => NaN n
  | Infinity n1, Infinity n2 => Infinity (xorb n1 n2)
  | Infinity n1, Finite n2 m _ | Finite n2 m _, Infinity n1 =>
      if (m =? 0)%N then NaN true else Infinity (xorb n1 n2)
  | Finite n1 m1 e1, Finite n2 m2 e2 => Finite (xorb n1 n2) (m1 * m2) (e1 + e2)
  end.

Definition ltb (x y : t) : bool :=
  match x, y with
  | NaN _, _ | _, NaN _ => false
  | Infinity n1, Infinity n2 => n1 && negb n2
  | Infinity n, Finite _ _ _ => n
  | Finite _ _ _, Infinity n => negb n
  | Finite n1 m1 e1, Finite n2 m2 e2 =>
      let e := Z.min e1 e2 in
      signed n1 m1 * 10 ^ (e1 - e) <? signed n2 m2 * 10 ^ (e2 - e)
  end.

Definition gtb (x y : t) : bool := ltb y x.

(** The literal [0.15]. *)
Definition c015 : t := Finite false 15 (-2).

End DecimalFloat.

(** ** Sample logs *)

Module Sample.

(** A file system holding one file. *)
Definition one_file (path text : string) : filesystem :=
  fun p => if String.eqb p path then Some text else None.

(** A line of text with its terminator. *)
Definition ln (s : string) : string := s ++ String LF EmptyString.

(** The notebook of the benzene run with [text] as optimization log. *)
Definition benzene (text : string) : notebook :=
  {| molecule_name := "benzene";
     files := one_file "benzene_geometry_optimization.dat" text |}.

(** The benzene notebook before the optimization wrote any log. *)
Definition no_log : notebook :=
  {| molecule_name := "benzene"; files := fun _ => None |}.

Definition step1_R12 : string :=
  ln "      1 R(1,2)          =      1.510     0.80416    -0.11500     1.510".
Definition step2_R12 : string :=
  ln "      1 R(1,2)          =      1.510    -0.01042    -0.00310     1.395".
Definition step1_R16 : string :=
  ln "      2 R(1,6)          =      1.390     0.00212     0.00077     1.391".
Definition header : string :=
  ln "       Coordinate         Previous      Force     Change       New".
Definition fragment_R12 : string :=
  ln "  R(1,2)           =         2.853486        1.510000".
Definition energy1 : string := ln "Current energy =   -230.712451".
Definition energy2 : string := ln "Current energy =   -230.713021".
Definition energy3 : string := ln "Current energy =   -230.713030".

(** Two optimization steps of a run, as the optimizer reports them. *)
Definition optimization_log : string :=
  header ++ step1_R12 ++ step1_R16 ++ fragment_R12 ++ energy1 ++
  header ++ step2_R12 ++ energy2.

(** The log of the distance scenario: two rows for the pair (1,2). *)
Definition two_rows_log : string := step1_R12 ++ step2_R12.

(** The log of the energy scenario. *)
Definition energy_log : string := energy1 ++ energy2 ++ energy3.

(** A line that holds the token after two blanks and nothing else. *)
Definition bare_token : string := ln "  xR(1,2)".

Definition bare_token_log : string := bare_token ++ step1_R12.

(** A row whose first field already is the token. *)
Definition token_first : string :=
  ln "R(1,2) R(1,2)          =      1.510     0.80416    -0.11500     1.510".

(** Energy lines in another layout, and one cut short. *)
Definition energy_unit : string := ln "Current energy (au) :   -230.712451".
Definition energy_cut : string := ln "Current energy".

Definition cut_log : string := energy1 ++ energy_cut ++ energy2.
Definition unit_cut_log : string := energy_unit ++ energy_cut.

(** Rows for the pair (1,2) that stop before field 3 and before field 6. *)
Definition row_cut3 : string := ln "      1 R(1,2)          =".
Definition row_cut6 : string := ln "      1 R(1,2)          =      1.510".

(** The plotting cells run with the decimal reader and its arithmetic. *)
Definition run_distance_cell (nb : notebook) : result (plot_data DecimalFloat.t) :=
  distance_cell DecimalFloat.of_string DecimalFloat.add DecimalFloat.sub
    DecimalFloat.mul DecimalFloat.gtb DecimalFloat.ltb DecimalFloat.c015 nb.
Definition run_energy_cell (nb : notebook) : result (plot_data DecimalFloat.t) :=
  energy_cell DecimalFloat.of_string DecimalFloat.add DecimalFloat.sub
    DecimalFloat.mul DecimalFloat.gtb DecimalFloat.ltb DecimalFloat.c015 nb.

End Sample.

(** ** Properties of the built-ins *)

Lemma split_cons (c : ascii) (s : string) :
  split (String c s) =
  if isspace c then split s
  else if starts_field s then
         match split s with
         | w :: ws => String c w :: ws
         | [] => [String c EmptyString]
         end
       else String c EmptyString :: split s.
Proof. reflexivity. Qed.

Lemma rstrip_cons (c : ascii) (s : string) :
  rstrip (String c s) =
  match rstrip s with
  | EmptyString => if isspace c then EmptyString else String c EmptyString
  | r => String c r
  end.
Proof. reflexivity. Qed.

(** Leading whitespace does not change the fields. *)
Lemma split_lstrip (s : string) : split (lstrip s) = split s.
Proof.
  induction s as [|c s IH]; [reflexivity|].
  rewrite split_cons. simpl lstrip.
  destruct (isspace c) eqn:Hc; [exact IH|].
  rewrite split_cons, Hc. reflexivity.
Qed.

(** A string that [rstrip] empties has no field. *)
Lemma rstrip_empty (s : string) :
  rstrip s = EmptyString -> split s = [] /\ starts_field s = false.
Proof.
  induction s as [|c s IH]; intros H; [split; reflexivity|].
  rewrite rstrip_cons in H. rewrite split_cons. simpl starts_field.
  destruct (rstrip s) eqn:Hr; [|discriminate].
  destruct (isspace c); [|discriminate].
  destruct IH as [IH _]; auto.
Qed.

(** [rstrip] keeps the first character of what it does not empty. *)
Lemma rstrip_head (s : string) (c : ascii) (r : string) :
  rstrip s = String c r -> starts_field s = negb (isspace c).
Proof.
  destruct s as [|c' s]; [discriminate|].
  rewrite rstrip_cons. simpl starts_field.
  intros H. assert (Hc : c' = c).
  { destruct (rstrip s); [destruct (isspace c')|]; inversion H; reflexivity. }
  rewrite Hc. reflexivity.
Qed.

(** Trailing whitespace does not change the fields. *)
Lemma split_rstrip (s : string) : split (rstrip s) = split s.
Proof.
  induction s as [|c s IH]; [reflexivity|].
  rewrite rstrip_cons, (split_cons c s).
  destruct (rstrip s) as [|a r] eqn:Hr.
  - destruct (rstrip_empty s Hr) as [Hs Hf]. rewrite Hs, Hf.
    destruct (isspace c) eqn:Hc; [reflexivity|].
    rewrite split_cons, Hc. reflexivity.
  - rewrite split_cons, IH.
    replace (starts_field (String a r)) with (starts_field s); [reflexivity|].
    rewrite (rstrip_head s a r Hr). reflexivity.
Qed.

(** [line.strip().split()] and [line.split()] are the same list. *)
Lemma split_strip (s : string) : split (strip s) = split s.
Proof. unfold strip. rewrite split_lstrip. apply split_rstrip. Qed.

(** [find] returns -1 or an index from its starting position on. *)
Lemma find_from_range (sub s : string) (i : Z) :
  find_from i s sub = -1 \/ i <= find_from i s sub.
Proof.
  revert i. induction s as [|c s IH]; intros i; cbn [find_from].
  - destruct (prefix sub EmptyString); [right; lia | left; reflexivity].
  - destruct (prefix sub (String c s)); [right; lia|].
    destruct (IH (i + 1)) as [H|H]; [left; exact H | right; lia].
Qed.

Section Comprehension.

Context {A B : Type} (elt : A -> result B) (cond : A -> result bool).

(** When the condition raises on no element, the comprehension returns
    the values of the kept elements, in order. *)
Lemma list_comp_filter (p : A -> bool) (xs : list A) (ys : list B) :
  (forall x, In x xs -> cond x = Ok (p x)) ->
  Forall2 (fun x y => elt x = Ok y) (filter p xs) ys ->
  list_comp elt cond xs = Ok ys.
Proof.
  revert ys. induction xs as [|x xs IH]; intros ys Hc Hv; simpl in *.
  - inversion Hv. reflexivity.
  - rewrite (Hc x (or_introl eq_refl)). simpl.
    destruct (p x).
    + inversion Hv as [|x' y ? ys' Hy Hys]; subst.
      rewrite Hy. simpl. rewrite (IH ys'); auto.
    + apply IH; auto.
Qed.

End Comprehension.

Lemma open_some (fs : filesystem) (path text : string) :
  fs path = Some text -> open fs path = Ok text.
Proof. intros H. unfold open. rewrite H. reflexivity. Qed.

Lemma open_none (fs : filesystem) (path : string) :
  fs path = None -> open fs path = Raise FileNotFoundError.
Proof. intros H. unfold open. rewrite H. reflexivity. Qed.

(** ** Properties of the extractors *)

(** *** The condition of [plot_R] and the rows it keeps *)

Lemma getitem_short {A : Type} (xs : list A) (i : nat) :
  (length xs <= i)%nat -> getitem xs i = Raise IndexError.
Proof.
  intros H. unfold getitem.
  rewrite (proj2 (nth_error_None xs i) H). reflexivity.
Qed.

Lemma getitem_long {A : Type} (xs : list A) (i : nat) :
  (i < length xs)%nat -> exists x, nth_error xs i = Some x /\ getitem xs i = Ok x.
Proof.
  intros H. unfold getitem.
  destruct (nth_error xs i) as [x|] eqn:Hx.
  - exists x. split; reflexivity.
  - apply nth_error_None in Hx. lia.
Qed.

Lemma R_pair_cond_low (tok line : string) :
  find line tok <= 1 -> R_pair_cond tok line = Ok false.
Proof.
  intros H. unfold R_pair_cond.
  destruct (Z.ltb_spec 1 (find line tok)); [lia | reflexivity].
Qed.

Lemma R_pair_cond_high (tok line : string) :
  1 < find line tok ->
  R_pair_cond tok line =
  (field <- getitem (split line) 1 ;; Ok (startswith field tok)).
Proof.
  intros H. unfold R_pair_cond.
  destruct (Z.ltb_spec 1 (find line tok)); [|lia].
  rewrite split_strip. reflexivity.
Qed.

(** The condition raises exactly on a line that holds the token from
    index 2 on and has fewer than two fields. *)
Lemma R_pair_cond_short (tok line : string) :
  1 < find line tok -> (length (split line) < 2)%nat ->
  R_pair_cond tok line = Raise IndexError.
Proof.
  intros Hf Hl. rewrite (R_pair_cond_high _ _ Hf).
  rewrite getitem_short by lia. reflexivity.
Qed.

Lemma R_pair_cond_total (tok line : string) :
  (1 < find line tok -> (2 <= length (split line))%nat) ->
  R_pair_cond tok line = Ok (R_match tok line).
Proof.
  intros H. unfold R_match.
  destruct (Z.lt_ge_cases 1 (find line tok)) as [Hf|Hf].
  - rewrite (R_pair_cond_high _ _ Hf).
    destruct (getitem_long (split line) 1) as [x [_ ->]]; [specialize (H Hf); lia|].
    simpl. destruct (startswith x tok); reflexivity.
  - rewrite R_pair_cond_low by lia. reflexivity.
Qed.

Lemma R_pair_cond_cases (tok line : string) :
  R_pair_cond tok line = Ok (R_match tok line) \/
  R_pair_cond tok line = Raise IndexError.
Proof.
  destruct (Z.lt_ge_cases 1 (find line tok)) as [Hf|Hf].
  - destruct (Nat.lt_ge_cases (length (split line)) 2) as [Hl|Hl].
    + right. apply R_pair_cond_short; assumption.
    + left. apply R_pair_cond_total. intros _. exact Hl.
  - left. apply R_pair_cond_total. lia.
Qed.

Lemma R_match_spec (tok line : string) :
  R_match tok line = true <->
  1 < find line tok /\ second_field_startswith tok line = true.
Proof.
  unfold R_match, R_pair_cond, second_field_startswith, getitem.
  destruct (Z.ltb_spec 1 (find line tok)) as [Hf|Hf].
  - destruct (nth_error (split (strip line)) 1) as [field|]; simpl.
    + destruct (startswith field tok); intuition congruence.
    + intuition congruence.
  - split; [discriminate | lia].
Qed.

Lemma rows_with_R_pairs_total (tok : string) (lines : list string) :
  (forall line, In line lines -> R_pair_cond tok line = Ok (R_match tok line)) ->
  rows_with_R_pairs tok lines = Ok (map split (filter (R_match tok) lines)).
Proof.
  intros H. unfold rows_with_R_pairs.
  apply list_comp_filter with (p := R_match tok); [exact H|].
  induction (filter (R_match tok) lines); constructor; auto.
Qed.

Lemma rows_with_R_pairs_raise (tok : string) (lines : list string) (line : string) :
  In line lines -> R_pair_cond tok line = Raise IndexError ->
  rows_with_R_pairs tok lines = Raise IndexError.
Proof.
  unfold rows_with_R_pairs.
  induction lines as [|l ls IH]; intros Hin Hr; [destruct Hin|].
  simpl. destruct (R_pair_cond_cases tok l) as [Hl|Hl]; rewrite Hl; [|reflexivity].
  destruct Hin as [->|Hin]; [congruence|].
  simpl. destruct (R_match tok l); simpl; rewrite (IH Hin Hr); reflexivity.
Qed.

Lemma rows_with_R_pairs_cases (tok : string) (lines : list string) :
  rows_with_R_pairs tok lines = Ok (map split (filter (R_match tok) lines)) \/
  rows_with_R_pairs tok lines = Raise IndexError.
Proof.
  assert (H : (forall line, In line lines ->
                 R_pair_cond tok line = Ok (R_match tok line)) \/
              (exists line, In line lines /\
                 R_pair_cond tok line = Raise IndexError)).
  { induction lines as [|l ls IH]; [left; intros ? []|].
    destruct (R_pair_cond_cases tok l) as [Hl|Hl].
    - destruct IH as [IH|[x [Hx Hr]]].
      + left. intros line [<-|Hin]; auto.
      + right. exists x. split; [right|]; assumption.
    - right. exists l. split; [left; reflexivity | exact Hl]. }
  destruct H as [H|[line [Hin Hr]]].
  - left. apply rows_with_R_pairs_total. exact H.
  - right. apply (rows_with_R_pairs_raise tok lines line); assumption.
Qed.

Lemma filter_none {A : Type} (p : A -> bool) (xs : list A) :
  (forall x, In x xs -> p x = false) -> filter p xs = [].
Proof.
  induction xs as [|x xs IH]; intros H; simpl; [reflexivity|].
  rewrite (H x (or_introl eq_refl)). apply IH.
  intros; apply H; right; assumption.
Qed.

(** Every line that [plot_R] keeps matches in the sense of the
    specification. *)
Lemma R_match_spec_R_match (tok line : string) :
  R_match tok line = true -> spec_R_match tok line = true.
Proof.
  intros H. apply R_match_spec in H. destruct H as [Hf Hs].
  unfold spec_R_match. rewrite Hs.
  destruct (Z.leb_spec 0 (find line tok)); [reflexivity | lia].
Qed.

(** C3 (amended). A line is kept by [plot_R] if and only if the first
    occurrence of the token 'R(a,b)' in the line is at character index 2
    or greater and the second whitespace field of the stripped line
    starts with the token. *)
Theorem R_match_iff (a b : Z) (line : string) :
  R_match (pair_notation a b) line = true <->
  1 < find line (pair_notation a b) /\
  second_field_startswith (pair_notation a b) line = true.
Proof. apply R_match_spec. Qed.

Section ExtractorProperties.

Context {float : Type} (float_of_string : string -> option float).

Lemma plot_energy_open (nb : notebook) (text : string) :
  files nb (log_path nb) = Some text ->
  plot_energy float_of_string nb =
  plot_energy_lines float_of_string (file_lines text).
Proof.
  intros H. unfold plot_energy. rewrite (open_some _ _ _ H). reflexivity.
Qed.

Lemma plot_R_open (nb : notebook) (a b : Z) (text : string) :
  files nb (log_path nb) = Some text ->
  plot_R float_of_string nb a b =
  plot_R_lines float_of_string (pair_notation a b) (file_lines text).
Proof.
  intros H. unfold plot_R. rewrite (open_some _ _ _ H). reflexivity.
Qed.

Lemma float_field_inv (i : nat) (line : string) (x : float) :
  float_field float_of_string i line = Ok x ->
  exists field, getitem (split line) i = Ok field /\
                to_float float_of_string field = Ok x.
Proof.
  unfold float_field. destruct (getitem (split line) i) as [field|e]; simpl.
  - intros H. exists field. split; [reflexivity | exact H].
  - discriminate.
Qed.

(** [float(line.split()[i])] raises IndexError or ValueError only. *)
Lemma float_field_exn (i : nat) (line : string) (e : exn) :
  float_field float_of_string i line = Raise e ->
  e = IndexError \/ e = ValueError.
Proof.
  unfold float_field, getitem, to_float.
  destruct (nth_error (split line) i) as [field|]; simpl.
  - destruct (float_of_string field); intros H; inversion H. right; reflexivity.
  - intros H; inversion H. left; reflexivity.
Qed.

Lemma float_field_short (i : nat) (line : string) :
  (length (split line) <= i)%nat ->
  float_field float_of_string i line = Raise IndexError.
Proof.
  intros H. unfold float_field. rewrite (getitem_short _ _ H). reflexivity.
Qed.

(** The loop of [plot_R] appends the float at field 6 of each row. *)
Lemma append_distances_ok (ms : list string) (xs acc : list float) :
  floats_at float_of_string 6 ms xs ->
  append_distances float_of_string (map split ms) acc = Ok (acc ++ xs)%list.
Proof.
  intros H. revert acc.
  induction H as [|m x ms xs Hm _ IH]; intros acc; simpl.
  - rewrite app_nil_r. reflexivity.
  - destruct (float_field_inv _ _ _ Hm) as [field [-> Hx]]. simpl.
    rewrite Hx. simpl. rewrite IH, <- app_assoc. reflexivity.
Qed.

(** On a log where the condition raises on no line, [plot_R] returns the
    float at field 3 of the first kept line, then the floats at field 6
    of all kept lines. *)
Lemma plot_R_lines_ok (tok first : string) (lines rest : list string)
    (x0 : float) (xs : list float) :
  R_cond_safe tok lines ->
  filter (R_match tok) lines = first :: rest ->
  float_field float_of_string 3 first = Ok x0 ->
  floats_at float_of_string 6 (first :: rest) xs ->
  plot_R_lines float_of_string tok lines = Ok (x0 :: xs).
Proof.
  intros Hsafe Hms H3 H6. unfold plot_R_lines.
  rewrite rows_with_R_pairs_total.
  - rewrite Hms. simpl map. cbn [bind getitem nth_error].
    destruct (float_field_inv _ _ _ H3) as [field [-> Hx]].
    cbn [bind]. rewrite Hx. cbn [bind].
    change (split first :: map split rest) with (map split (first :: rest)).
    rewrite (append_distances_ok _ _ _ H6). reflexivity.
  - intros line Hin. apply R_pair_cond_total. exact (Hsafe line Hin).
Qed.

(** C1 (amended). On a log where every line holding the token from
    character index 2 on has at least two whitespace fields, and whose
    N >= 1 matching lines carry floats at field 3 (the first one) and at
    field 6 (all of them), [plot_R] returns N+1 values: the float at
    field 3 of the first matching line, then the float at field 6 of
    every matching line, in file order. *)
Theorem plot_R_values (nb : notebook) (a b : Z) (text first : string)
    (rest : list string) (x0 : float) (xs : list float) :
  files nb (log_path nb) = Some text ->
  R_cond_safe (pair_notation a b) (file_lines text) ->
  filter (R_match (pair_notation a b)) (file_lines text) = first :: rest ->
  float_field float_of_string 3 first = Ok x0 ->
  floats_at float_of_string 6 (first :: rest) xs ->
  plot_R float_of_string nb a b = Ok (x0 :: xs) /\
  length (x0 :: xs) =
  (length (filter (R_match (pair_notation a b)) (file_lines text)) + 1)%nat.
Proof.
  intros Hf Hsafe Hms H3 H6. split.
  - rewrite (plot_R_open _ _ _ _ Hf).
    apply (plot_R_lines_ok _ first _ rest); assumption.
  - rewrite Hms. simpl. rewrite <- (Forall2_length H6). simpl. lia.
Qed.

(** C5. On a log none of whose lines matches, [plot_R] raises
    IndexError; when the comprehension completes, the list of rows is
    empty and reading its first element is what raises. *)
Theorem plot_R_no_match (nb : notebook) (a b : Z) (text : string) :
  files nb (log_path nb) = Some text ->
  (forall line, In line (file_lines text) ->
     R_match (pair_notation a b) line = false) ->
  plot_R float_of_string nb a b = Raise IndexError /\
  (forall rows,
     rows_with_R_pairs (pair_notation a b) (file_lines text) = Ok rows ->
     rows = [] /\ getitem rows 0 = Raise IndexError).
Proof.
  intros Hf Hno. rewrite (plot_R_open _ _ _ _ Hf). unfold plot_R_lines.
  destruct (rows_with_R_pairs_cases (pair_notation a b) (file_lines text))
    as [H|H]; rewrite H; rewrite ?(filter_none _ _ Hno); simpl.
  - split; [reflexivity|]. intros rows Hr. inversion Hr. split; reflexivity.
  - split; [reflexivity|]. intros rows Hr. discriminate.
Qed.

(** C4 (amended). When the token 'R(a,b)' occurs on no line of the log,
    [plot_R] checks nothing about the pair, keeps no row, and raises
    IndexError on reading the first row. *)
Theorem plot_R_absent_pair (nb : notebook) (a b : Z) (text : string) :
  files nb (log_path nb) = Some text ->
  (forall line, In line (file_lines text) ->
     find line (pair_notation a b) = -1) ->
  rows_with_R_pairs (pair_notation a b) (file_lines text) = Ok [] /\
  plot_R float_of_string nb a b = Raise IndexError.
Proof.
  intros Hf Hno.
  assert (Hrows : rows_with_R_pairs (pair_notation a b) (file_lines text) = Ok []).
  { rewrite rows_with_R_pairs_total.
    - rewrite filter_none; [reflexivity|].
      intros line Hin. unfold R_match.
      rewrite R_pair_cond_low; [reflexivity | rewrite (Hno line Hin); lia].
    - intros line Hin. apply R_pair_cond_total.
      rewrite (Hno line Hin). lia. }
  split; [exact Hrows|].
  rewrite (plot_R_open _ _ _ _ Hf). unfold plot_R_lines.
  rewrite Hrows. reflexivity.
Qed.

(** C10. A line that holds the token at character index 2 or greater is
    tested by indexing field 1 of the stripped line; when a log has such
    a line with fewer than two whitespace fields, the condition raises
    IndexError on it, so the comprehension and [plot_R] raise IndexError
    instead of skipping the line. *)
Theorem plot_R_short_line (nb : notebook) (a b : Z) (text line : string) :
  files nb (log_path nb) = Some text ->
  In line (file_lines text) ->
  1 < find line (pair_notation a b) ->
  (length (split line) < 2)%nat ->
  R_pair_cond (pair_notation a b) line = Raise IndexError /\
  rows_with_R_pairs (pair_notation a b) (file_lines text) = Raise IndexError /\
  plot_R float_of_string nb a b = Raise IndexError.
Proof.
  intros Hf Hin Hfind Hlen.
  pose proof (R_pair_cond_short _ _ Hfind Hlen) as Hc.
  pose proof (rows_with_R_pairs_raise _ _ _ Hin Hc) as Hr.
  repeat split; try assumption.
  rewrite (plot_R_open _ _ _ _ Hf). unfold plot_R_lines.
  rewrite Hr. reflexivity.
Qed.

(** C7. The log of two matching lines for the pair (1,2), with fields
    [_, "R(1,2)", _, "1.510", _, _, "1.510"] and
    [_, "R(1,2)", _, _, _, _, "1.395"], gives
    [float("1.510"), float("1.510"), float("1.395")]. *)
Theorem plot_R_scenario (nb : notebook) (text l1 l2 : string)
    (f0 f2 f4 f5 g0 g2 g3 g4 g5 : string) (d1510 d1395 : float) :
  files nb (log_path nb) = Some text ->
  file_lines text = [l1; l2] ->
  R_match "R(1,2)" l1 = true ->
  R_match "R(1,2)" l2 = true ->
  split l1 = [f0; "R(1,2)"; f2; "1.510"; f4; f5; "1.510"] ->
  split l2 = [g0; "R(1,2)"; g2; g3; g4; g5; "1.395"] ->
  float_of_string "1.510" = Some d1510 ->
  float_of_string "1.395" = Some d1395 ->
  plot_R float_of_string nb 1 2 = Ok [d1510; d1510; d1395].
Proof.
  intros Hf Hl M1 M2 S1 S2 F1 F2.
  assert (Hfield : forall l fs i s x, split l = fs -> nth_error fs i = Some s ->
            float_of_string s = Some x -> float_field float_of_string i l = Ok x).
  { intros l fs i s x Hs Hn Hx. unfold float_field, getitem, to_float.
    rewrite Hs, Hn. simpl. rewrite Hx. reflexivity. }
  rewrite (plot_R_open _ _ _ _ Hf).
  apply (plot_R_lines_ok _ l1 _ [l2]).
  - intros line Hin Hfind. rewrite Hl in Hin.
    destruct Hin as [<-|[<-|[]]]; [rewrite S1 | rewrite S2]; simpl; lia.
  - rewrite Hl. change (pair_notation 1 2) with "R(1,2)".
    simpl. rewrite M1, M2. reflexivity.
  - exact (Hfield _ _ 3%nat _ _ S1 eq_refl F1).
  - repeat constructor.
    + exact (Hfield _ _ 6%nat _ _ S1 eq_refl F1).
    + exact (Hfield _ _ 6%nat _ _ S2 eq_refl F2).
Qed.

(** A failing line of [plot_energy]: the comprehension raises, and it
    raises IndexError unless an earlier kept line raised ValueError. *)
Lemma plot_energy_lines_raise (pre post : list string) (line : string) :
  energy_match line = true ->
  float_field float_of_string 3 line = Raise IndexError ->
  exists e, plot_energy_lines float_of_string (pre ++ line :: post) = Raise e /\
    (e = IndexError \/
     exists l, In l pre /\ energy_match l = true /\
               float_field float_of_string 3 l = Raise ValueError).
Proof.
  intros Hm Hr. unfold plot_energy_lines.
  induction pre as [|l pre IH]; cbn [app list_comp energy_cond bind].
  - exists IndexError.
    rewrite Hm.
    change (energy_value float_of_string line)
      with (float_field float_of_string 3 line).
    rewrite Hr. split; [reflexivity | left; reflexivity].
  - destruct IH as [e [He Hcase]].
    assert (Hcase' : e = IndexError \/
              exists l', (l = l' \/ In l' pre) /\ energy_match l' = true /\
                         float_field float_of_string 3 l' = Raise ValueError).
    { destruct Hcase as [H|[l' [H1 H2]]]; [left; exact H|].
      right. exists l'. split; [right|]; assumption. }
    destruct (energy_match l) eqn:Hl.
    + change (energy_value float_of_string l)
        with (float_field float_of_string 3 l).
      destruct (float_field float_of_string 3 l) as [x|e'] eqn:Hx; cbn [bind].
      * rewrite He. exists e. split; [reflexivity | exact Hcase'].
      * exists e'. split; [reflexivity|].
        destruct (float_field_exn _ _ _ Hx) as [->| ->]; [left; reflexivity|].
        right. exists l. split; [left; reflexivity | split; assumption].
    + exists e. split; [exact He | exact Hcase'].
Qed.

(** C8 (amended). A log with a line whose stripped content starts with
    "Current energy" and that has fewer than 4 whitespace fields makes
    [plot_energy] raise; the exception is IndexError when no earlier
    kept line has a field 3 that is not a float literal. *)
Theorem plot_energy_short_line (nb : notebook) (text line : string)
    (pre post : list string) :
  files nb (log_path nb) = Some text ->
  file_lines text = (pre ++ line :: post)%list ->
  energy_match line = true ->
  (length (split line) < 4)%nat ->
  (exists e, plot_energy float_of_string nb = Raise e) /\
  ((forall l, In l pre -> energy_match l = true ->
      float_field float_of_string 3 l <> Raise ValueError) ->
   plot_energy float_of_string nb = Raise IndexError).
Proof.
  intros Hf Hl Hm Hlen. rewrite (plot_energy_open _ _ Hf), Hl.
  assert (Hr : float_field float_of_string 3 line = Raise IndexError)
    by (apply float_field_short; lia).
  destruct (plot_energy_lines_raise pre post line Hm Hr) as [e [He Hcase]].
  split; [exists e; exact He|].
  intros Hpre. rewrite He. destruct Hcase as [->|[l [H1 [H2 H3]]]]; [reflexivity|].
  destruct (Hpre l H1 H2 H3).
Qed.

(** C2. When the log has exactly M lines whose stripped content starts
    with "Current energy", [plot_energy] returns exactly M values: the
    floats at whitespace field 3 of those lines, in file order. *)
Theorem plot_energy_values (nb : notebook) (text : string) (xs : list float) :
  files nb (log_path nb) = Some text ->
  floats_at float_of_string 3 (filter energy_match (file_lines text)) xs ->
  plot_energy float_of_string nb = Ok xs /\
  length xs = length (filter energy_match (file_lines text)).
Proof.
  intros Hf Hxs. rewrite (plot_energy_open _ _ Hf). split.
  - apply list_comp_filter with (p := energy_match).
    + intros; reflexivity.
    + exact Hxs.
  - symmetry. exact (Forall2_length Hxs).
Qed.

(** C6. A log without any line whose stripped content starts with
    "Current energy" gives the empty list, and no exception. *)
Theorem plot_energy_no_match (nb : notebook) (text : string) :
  files nb (log_path nb) = Some text ->
  (forall line, In line (file_lines text) -> energy_match line = false) ->
  plot_energy float_of_string nb = Ok [].
Proof.
  intros Hf Hno. rewrite (plot_energy_open _ _ Hf).
  apply list_comp_filter with (p := energy_match).
  - intros; reflexivity.
  - rewrite (filter_none _ _ Hno). constructor.
Qed.

(** C9. When no file exists at the path of the log, both extractors
    raise FileNotFoundError. *)
Theorem extractors_file_not_found (nb : notebook) (a b : Z) :
  files nb (log_path nb) = None ->
  plot_R float_of_string nb a b = Raise FileNotFoundError /\
  plot_energy float_of_string nb = Raise FileNotFoundError.
Proof.
  intros H. unfold plot_R, plot_energy.
  rewrite (open_none _ _ H). split; reflexivity.
Qed.

End ExtractorProperties.

(** ** The properties on the sample logs *)

Import Sample.

(** Goals about each line of a concrete log. *)
Ltac each_line H :=
  vm_compute in H;
  repeat (destruct H as [H|H]; [subst|]); [..|destruct H].

Example optimization_log_distances :
  plot_R DecimalFloat.of_string (benzene optimization_log) 1 2 =
  Ok [DecimalFloat.Finite false 1510 (-3);
      DecimalFloat.Finite false 1510 (-3);
      DecimalFloat.Finite false 1395 (-3)].
Proof. vm_compute. reflexivity. Qed.

Example optimization_log_energies :
  plot_energy DecimalFloat.of_string (benzene optimization_log) =
  Ok [DecimalFloat.Finite true 230712451 (-6);
      DecimalFloat.Finite true 230713021 (-6)].
Proof. vm_compute. reflexivity. Qed.

(** C1 as stated fails: the log has exactly one matching line, with
    floats at fields 3 and 6, and a line that holds the token alone;
    [plot_R] raises IndexError instead of returning two values. *)
Lemma plot_R_values_counterexample :
  filter (R_match (pair_notation 1 2)) (file_lines bare_token_log) = [step1_R12] /\
  filter (spec_R_match (pair_notation 1 2)) (file_lines bare_token_log) = [step1_R12] /\
  float_field DecimalFloat.of_string 3 step1_R12 =
    Ok (DecimalFloat.Finite false 1510 (-3)) /\
  float_field DecimalFloat.of_string 6 step1_R12 =
    Ok (DecimalFloat.Finite false 1510 (-3)) /\
  plot_R DecimalFloat.of_string (benzene bare_token_log) 1 2 = Raise IndexError.
Proof. repeat split; vm_compute; reflexivity. Qed.

Lemma plot_R_values_witness :
  plot_R DecimalFloat.of_string (benzene optimization_log) 1 2 =
    Ok [DecimalFloat.Finite false 1510 (-3);
        DecimalFloat.Finite false 1510 (-3);
        DecimalFloat.Finite false 1395 (-3)] /\
  length [DecimalFloat.Finite false 1510 (-3);
          DecimalFloat.Finite false 1510 (-3);
          DecimalFloat.Finite false 1395 (-3)] =
  (length (filter (R_match (pair_notation 1 2)) (file_lines optimization_log)) + 1)%nat.
Proof.
  apply (plot_R_values DecimalFloat.of_string (benzene optimization_log) 1 2
           optimization_log step1_R12 [step2_R12]).
  - reflexivity.
  - intros line Hin. each_line Hin; vm_compute; intros H;
      solve [discriminate H | repeat constructor].
  - vm_compute. reflexivity.
  - vm_compute. reflexivity.
  - repeat constructor.
Defined.

Lemma plot_energy_values_witness :
  plot_energy DecimalFloat.of_string (benzene energy_log) =
    Ok [DecimalFloat.Finite true 230712451 (-6);
        DecimalFloat.Finite true 230713021 (-6);
        DecimalFloat.Finite true 230713030 (-6)] /\
  length [DecimalFloat.Finite true 230712451 (-6);
          DecimalFloat.Finite true 230713021 (-6);
          DecimalFloat.Finite true 230713030 (-6)] =
  length (filter energy_match (file_lines energy_log)).
Proof.
  apply (plot_energy_values DecimalFloat.of_string (benzene energy_log) energy_log).
  - reflexivity.
  - vm_compute. repeat constructor.
Defined.

(** C3 as stated fails: the token occurs in the line and the second
    field of the stripped line starts with it, yet the line is not kept,
    because the first occurrence of the token is at index 0. *)
Lemma R_match_iff_counterexample :
  spec_R_match (pair_notation 1 2) token_first = true /\
  find token_first (pair_notation 1 2) = 0 /\
  R_pair_cond (pair_notation 1 2) token_first = Ok false /\
  rows_with_R_pairs (pair_notation 1 2) (file_lines token_first) = Ok [].
Proof. repeat split; vm_compute; reflexivity. Qed.

(** C4 as stated fails: the token 'R(7,8)' occurs on no line of the
    log, and [plot_R] raises IndexError instead of returning []. *)
Lemma plot_R_absent_pair_counterexample :
  forallb (fun line => find line (pair_notation 7 8) =? -1)
          (file_lines optimization_log) = true /\
  plot_R DecimalFloat.of_string (benzene optimization_log) 7 8 = Raise IndexError /\
  plot_R DecimalFloat.of_string (benzene optimization_log) 7 8 <> Ok [].
Proof. repeat split; try (vm_compute; reflexivity). vm_compute. discriminate. Qed.

Lemma plot_R_absent_pair_witness :
  rows_with_R_pairs (pair_notation 7 8) (file_lines optimization_log) = Ok [] /\
  plot_R DecimalFloat.of_string (benzene optimization_log) 7 8 = Raise IndexError.
Proof.
  apply (plot_R_absent_pair DecimalFloat.of_string (benzene optimization_log) 7 8
           optimization_log).
  - reflexivity.
  - intros line Hin. each_line Hin; vm_compute; reflexivity.
Defined.

Lemma plot_R_no_match_witness :
  plot_R DecimalFloat.of_string
    (benzene (fragment_R12 ++ energy1 ++ step1_R16)) 1 2 = Raise IndexError.
Proof.
  apply (plot_R_no_match DecimalFloat.of_string
           (benzene (fragment_R12 ++ energy1 ++ step1_R16)) 1 2
           (fragment_R12 ++ energy1 ++ step1_R16)).
  - reflexivity.
  - intros line Hin. each_line Hin; vm_compute; reflexivity.
Defined.

Lemma plot_energy_no_match_witness :
  plot_energy DecimalFloat.of_string (benzene two_rows_log) = Ok [].
Proof.
  apply (plot_energy_no_match DecimalFloat.of_string (benzene two_rows_log)
           two_rows_log).
  - reflexivity.
  - intros line Hin. each_line Hin; vm_compute; reflexivity.
Defined.

Lemma plot_R_scenario_witness :
  plot_R DecimalFloat.of_string (benzene two_rows_log) 1 2 =
  Ok [DecimalFloat.Finite false 1510 (-3);
      DecimalFloat.Finite false 1510 (-3);
      DecimalFloat.Finite false 1395 (-3)].
Proof.
  apply (plot_R_scenario DecimalFloat.of_string (benzene two_rows_log)
           two_rows_log step1_R12 step2_R12
           "1" "=" "0.80416" "-0.11500" "1" "=" "1.510" "-0.01042" "-0.00310");
    vm_compute; reflexivity.
Defined.

(** C8 as stated fails: the log has a "Current energy" line of two
    fields, and [plot_energy] raises ValueError, on the kept line before
    it whose field 3 is ":". *)
Lemma plot_energy_short_line_counterexample :
  In energy_cut (file_lines unit_cut_log) /\
  energy_match energy_cut = true /\
  length (split energy_cut) = 2%nat /\
  plot_energy DecimalFloat.of_string (benzene unit_cut_log) = Raise ValueError.
Proof.
  repeat split; try (vm_compute; reflexivity).
  right. left. vm_compute. reflexivity.
Qed.

Lemma plot_energy_short_line_witness :
  plot_energy DecimalFloat.of_string (benzene cut_log) = Raise IndexError.
Proof.
  apply (plot_energy_short_line DecimalFloat.of_string (benzene cut_log)
           cut_log energy_cut [energy1] [energy2]).
  - reflexivity.
  - vm_compute. reflexivity.
  - vm_compute. reflexivity.
  - vm_compute. repeat constructor.
  - intros l Hin. each_line Hin. vm_compute. discriminate.
Defined.

Lemma extractors_file_not_found_witness :
  plot_R DecimalFloat.of_string no_log 1 2 = Raise FileNotFoundError /\
  plot_energy DecimalFloat.of_string no_log = Raise FileNotFoundError.
Proof.
  apply (extractors_file_not_found DecimalFloat.of_string no_log 1 2).
  reflexivity.
Defined.

Lemma plot_R_short_line_witness :
  R_pair_cond (pair_notation 1 2) bare_token = Raise IndexError /\
  rows_with_R_pairs (pair_notation 1 2) (file_lines bare_token_log) =
    Raise IndexError /\
  plot_R DecimalFloat.of_string (benzene bare_token_log) 1 2 = Raise IndexError.
Proof.
  apply (plot_R_short_line DecimalFloat.of_string (benzene bare_token_log) 1 2
           bare_token_log bare_token).
  - reflexivity.
  - left. vm_compute. reflexivity.
  - vm_compute. reflexivity.
  - vm_compute. repeat constructor.
Defined.

(** ** Further properties of the comprehensions *)

Section ComprehensionMore.

Context {A B : Type} (elt : A -> result B) (cond : A -> result bool).

(** The elements a comprehension keeps. *)
Let kept (x : A) : bool :=
  match cond x with
  | Ok true => true
  | _ => false
  end.

(** A comprehension that returns evaluated its condition on every
    element without exception, and its expression on every kept one. *)
Lemma list_comp_ok_inv (xs : list A) (ys : list B) :
  list_comp elt cond xs = Ok ys ->
  (forall x, In x xs -> cond x = Ok (kept x)) /\
  Forall2 (fun x y => elt x = Ok y) (filter kept xs) ys.
Proof.
  revert ys. induction xs as [|x xs IH]; intros ys H; cbn [list_comp] in H.
  - inversion H. split; [intros ? [] | constructor].
  - destruct (cond x) as [[|]|e] eqn:Hc; cbn [bind] in H; try discriminate.
    + assert (Hk : kept x = true) by (unfold kept; rewrite Hc; reflexivity).
      cbn [filter]. rewrite Hk.
      destruct (elt x) as [y|e] eqn:Hy; cbn [bind] in H; try discriminate.
      destruct (list_comp elt cond xs) as [ys'|e] eqn:Hr; cbn [bind] in H;
        try discriminate.
      inversion H; subst. destruct (IH ys' eq_refl) as [IH1 IH2]. split.
      * intros z [<-|Hz]; [rewrite Hk; exact Hc | auto].
      * constructor; assumption.
    + assert (Hk : kept x = false) by (unfold kept; rewrite Hc; reflexivity).
      cbn [filter]. rewrite Hk.
      destruct (IH ys H) as [IH1 IH2]. split.
      * intros z [<-|Hz]; [rewrite Hk; exact Hc | auto].
      * assumption.
Qed.

(** A comprehension over two lists in a row: when the first part
    returns, the result is its values followed by those of the rest. *)
Lemma list_comp_app (xs zs : list A) (ys : list B) :
  list_comp elt cond xs = Ok ys ->
  list_comp elt cond (xs ++ zs) =
  bind (list_comp elt cond zs) (fun ws => Ok (ys ++ ws)%list).
Proof.
  revert ys. induction xs as [|x xs IH]; intros ys H; cbn [list_comp app] in *.
  - inversion H. destruct (list_comp elt cond zs); reflexivity.
  - destruct (cond x) as [[|]|e]; cbn [bind] in *; try discriminate.
    + destruct (elt x) as [y|e]; cbn [bind] in *; try discriminate.
      destruct (list_comp elt cond xs) as [ys'|e]; cbn [bind] in *;
        try discriminate.
      inversion H; subst. rewrite (IH ys' eq_refl).
      destruct (list_comp elt cond zs); reflexivity.
    + exact (IH ys H).
Qed.

(** Elements on which the condition returns [False] can be left out. *)
Lemma list_comp_skip (q : A -> bool) (xs : list A) :
  (forall x, q x = false -> cond x = Ok false) ->
  list_comp elt cond (filter q xs) = list_comp elt cond xs.
Proof.
  intros Hq. induction xs as [|x xs IH]; [reflexivity|].
  cbn [filter]. destruct (q x) eqn:Hx.
  - cbn [list_comp]. rewrite IH. reflexivity.
  - cbn [list_comp]. rewrite (Hq x Hx). cbn [bind]. exact IH.
Qed.

(** A comprehension raises only what its condition or its expression
    raises. *)
Lemma list_comp_exn (P : exn -> Prop) (xs : list A) (e : exn) :
  (forall x e', cond x = Raise e' -> P e') ->
  (forall x e', elt x = Raise e' -> P e') ->
  list_comp elt cond xs = Raise e -> P e.
Proof.
  intros Hc He. induction xs as [|x xs IH]; cbn [list_comp]; [discriminate|].
  destruct (cond x) as [[|]|e'] eqn:Hx; cbn [bind].
  - destruct (elt x) as [y|e'] eqn:Hy; cbn [bind].
    + destruct (list_comp elt cond xs) as [ys|e']; cbn [bind];
        [discriminate|].
      intros H; inversion H; subst. apply IH. reflexivity.
    + intros H; inversion H; subst. exact (He x e Hy).
  - exact IH.
  - intros H; inversion H; subst. exact (Hc x e Hx).
Qed.

End ComprehensionMore.

(** ** When the extractors return, and what they raise *)

Section ExtractorResults.

Context {float : Type} (float_of_string : string -> option float).

Lemma plot_energy_lines_inv (lines : list string) (xs : list float) :
  plot_energy_lines float_of_string lines = Ok xs ->
  floats_at float_of_string 3 (filter energy_match lines) xs.
Proof.
  intros H. apply list_comp_ok_inv in H. destruct H as [_ H].
  rewrite (filter_ext _ energy_match) in H; [exact H|].
  intros line. unfold energy_cond. destruct (energy_match line); reflexivity.
Qed.

(** X1. [plot_energy] returns a list exactly when the log exists and
    every kept line has a float at field 3, and the list then holds
    these floats in file order. *)
Theorem plot_energy_returns_iff (nb : notebook) (xs : list float) :
  plot_energy float_of_string nb = Ok xs <->
  exists text, files nb (log_path nb) = Some text /\
    floats_at float_of_string 3 (filter energy_match (file_lines text)) xs.
Proof.
  split.
  - unfold plot_energy, open.
    destruct (files nb (log_path nb)) as [text|]; cbn [bind]; [|discriminate].
    intros H. exists text. split; [reflexivity|].
    apply plot_energy_lines_inv. exact H.
  - intros [text [Hf Hxs]]. rewrite (plot_energy_open _ _ _ Hf).
    apply list_comp_filter with (p := energy_match); [reflexivity | exact Hxs].
Qed.

Lemma rows_with_R_pairs_inv (tok : string) (lines : list string)
    (rows : list (list string)) :
  rows_with_R_pairs tok lines = Ok rows ->
  R_cond_safe tok lines /\ rows = map split (filter (R_match tok) lines).
Proof.
  intros H. split.
  - intros line Hin Hfind.
    destruct (Nat.lt_ge_cases (length (split line)) 2) as [Hl|Hl]; [|exact Hl].
    rewrite (rows_with_R_pairs_raise tok lines line Hin
               (R_pair_cond_short _ _ Hfind Hl)) in H.
    discriminate.
  - destruct (rows_with_R_pairs_cases tok lines) as [H'|H']; congruence.
Qed.

Lemma append_distances_inv (ms : list string) (acc ys : list float) :
  append_distances float_of_string (map split ms) acc = Ok ys ->
  exists xs, floats_at float_of_string 6 ms xs /\ ys = (acc ++ xs)%list.
Proof.
  revert acc. induction ms as [|m ms IH]; intros acc H; cbn [map append_distances] in H.
  - inversion H. exists []. split; [constructor | rewrite app_nil_r; reflexivity].
  - destruct (getitem (split m) 6) as [field|e] eqn:Hg; cbn [bind] in H;
      [|discriminate].
    destruct (to_float float_of_string field) as [x|e] eqn:Hx; cbn [bind] in H;
      [|discriminate].
    destruct (IH _ H) as [xs [Hxs ->]].
    exists (x :: xs). split.
    + constructor; [|exact Hxs]. unfold float_field. rewrite Hg. exact Hx.
    + rewrite <- app_assoc. reflexivity.
Qed.

Lemma plot_R_lines_inv (tok : string) (lines : list string) (ys : list float) :
  plot_R_lines float_of_string tok lines = Ok ys ->
  R_cond_safe tok lines /\
  exists first rest x0 xs,
    filter (R_match tok) lines = first :: rest /\
    float_field float_of_string 3 first = Ok x0 /\
    floats_at float_of_string 6 (first :: rest) xs /\
    ys = x0 :: xs.
Proof.
  unfold plot_R_lines. intros H.
  destruct (rows_with_R_pairs tok lines) as [rows|e] eqn:Hr; cbn [bind] in H;
    [|discriminate].
  destruct (rows_with_R_pairs_inv _ _ _ Hr) as [Hsafe ->].
  split; [exact Hsafe|].
  destruct (filter (R_match tok) lines) as [|first rest]; [discriminate|].
  cbn [map getitem nth_error bind] in H.
  destruct (getitem (split first) 3) as [field|e] eqn:Hg; cbn [bind] in H;
    [|discriminate].
  destruct (to_float float_of_string field) as [x0|e] eqn:Hx; cbn [bind] in H;
    [|discriminate].
  change (split first :: map split rest) with (map split (first :: rest)) in H.
  destruct (append_distances_inv _ _ _ H) as [xs [Hxs ->]].
  exists first, rest, x0, xs. repeat split; try assumption.
  unfold float_field. rewrite Hg. exact Hx.
Qed.

(** X2. [plot_R] returns a list exactly when the log exists, the
    condition raises on no line, at least one line matches, the first
    matching line has a float at field 3 and every matching line a float
    at field 6; the list is then the former followed by the latter. *)
Theorem plot_R_returns_iff (nb : notebook) (a b : Z) (ys : list float) :
  plot_R float_of_string nb a b = Ok ys <->
  exists text first rest x0 xs,
    files nb (log_path nb) = Some text /\
    R_cond_safe (pair_notation a b) (file_lines text) /\
    filter (R_match (pair_notation a b)) (file_lines text) = first :: rest /\
    float_field float_of_string 3 first = Ok x0 /\
    floats_at float_of_string 6 (first :: rest) xs /\
    ys = x0 :: xs.
Proof.
  split.
  - unfold plot_R, open.
    destruct (files nb (log_path nb)) as [text|]; cbn [bind]; [|discriminate].
    intros H. apply plot_R_lines_inv in H.
    destruct H as [Hsafe [first [rest [x0 [xs H]]]]].
    exists text, first, rest, x0, xs. tauto.
  - intros [text [first [rest [x0 [xs [Hf [Hsafe [Hms [H3 [H6 ->]]]]]]]]]].
    rewrite (plot_R_open _ _ _ _ _ Hf).
    apply (plot_R_lines_ok _ _ first _ rest); assumption.
Qed.

(** X3. A list that [plot_R] returns is never empty nor a singleton: it
    has one value more than the log has matching lines, and its first
    two values are the floats at fields 3 and 6 of the first matching
    line. *)
Theorem plot_R_at_least_two (nb : notebook) (a b : Z) (text : string)
    (ys : list float) :
  files nb (log_path nb) = Some text ->
  plot_R float_of_string nb a b = Ok ys ->
  length ys =
    S (length (filter (R_match (pair_notation a b)) (file_lines text))) /\
  exists first x0 x1 tail,
    hd_error (filter (R_match (pair_notation a b)) (file_lines text)) = Some first /\
    float_field float_of_string 3 first = Ok x0 /\
    float_field float_of_string 6 first = Ok x1 /\
    ys = x0 :: x1 :: tail.
Proof.
  intros Hf H. rewrite (plot_R_open _ _ _ _ _ Hf) in H.
  apply plot_R_lines_inv in H.
  destruct H as [_ [first [rest [x0 [xs [Hms [H3 [H6 ->]]]]]]]].
  rewrite Hms. inversion H6 as [|? x1 ? tail Hx1 Htail]; subst. split.
  - cbn [length]. rewrite (Forall2_length Htail). reflexivity.
  - exists first, x0, x1, tail. repeat split; assumption.
Qed.

Lemma append_distances_exn (rows : list (list string)) (acc : list float) (e : exn) :
  append_distances float_of_string rows acc = Raise e ->
  e = IndexError \/ e = ValueError.
Proof.
  revert acc. induction rows as [|item rows IH]; intros acc; cbn [append_distances];
    [discriminate|].
  unfold getitem, to_float.
  destruct (nth_error item 6) as [field|]; cbn [bind].
  - destruct (float_of_string field); cbn [bind]; [apply IH|].
    intros H; inversion H. right; reflexivity.
  - intros H; inversion H. left; reflexivity.
Qed.

(** Once the file is open, [plot_R] raises IndexError or ValueError only. *)
Lemma plot_R_lines_exn (tok : string) (lines : list string) (e : exn) :
  plot_R_lines float_of_string tok lines = Raise e ->
  e = IndexError \/ e = ValueError.
Proof.
  unfold plot_R_lines.
  destruct (rows_with_R_pairs_cases tok lines) as [-> | ->]; cbn [bind].
  - unfold getitem at 1.
    destruct (nth_error (map split (filter (R_match tok) lines)) 0) as [row0|];
      cbn [bind]; [|intros H; inversion H; left; reflexivity].
    unfold getitem, to_float.
    destruct (nth_error row0 3) as [field|]; cbn [bind];
      [|intros H; inversion H; left; reflexivity].
    destruct (float_of_string field); cbn [bind];
      [apply append_distances_exn | intros H; inversion H; right; reflexivity].
  - intros H; inversion H. left; reflexivity.
Qed.

Lemma plot_energy_lines_exn (lines : list string) (e : exn) :
  plot_energy_lines float_of_string lines = Raise e ->
  e = IndexError \/ e = ValueError.
Proof.
  unfold plot_energy_lines.
  apply (list_comp_exn _ _ (fun e => e = IndexError \/ e = ValueError)).
  - intros x e'. discriminate.
  - intros x e'. apply float_field_exn.
Qed.

(** X4. Either extractor raises FileNotFoundError exactly when no file
    exists at the path of the log: nothing else in them raises it. *)
Theorem file_not_found_iff (nb : notebook) (a b : Z) :
  (plot_R float_of_string nb a b = Raise FileNotFoundError <->
   files nb (log_path nb) = None) /\
  (plot_energy float_of_string nb = Raise FileNotFoundError <->
   files nb (log_path nb) = None).
Proof.
  unfold plot_R, plot_energy, open.
  destruct (files nb (log_path nb)) as [text|]; cbn [bind].
  - split; (split; [|discriminate]); intros H.
    + destruct (plot_R_lines_exn _ _ _ H); discriminate.
    + destruct (plot_energy_lines_exn _ _ H); discriminate.
  - split; split; reflexivity.
Qed.

End ExtractorResults.

(** ** Lines of a log that continues another *)

Lemma file_lines_cons (c : ascii) (text : string) :
  file_lines (String c text) =
  if Ascii.eqb c LF then String LF EmptyString :: file_lines text
  else if Ascii.eqb c CR then
    match text with
    | String c' _ =>
        if Ascii.eqb c' LF then file_lines text
        else String LF EmptyString :: file_lines text
    | EmptyString => [String LF EmptyString]
    end
  else
    match text with
    | EmptyString => [String c EmptyString]
    | _ => cons_line c (file_lines text)
    end.
Proof. reflexivity. Qed.

(** A text that is not empty has a line. *)
Lemma file_lines_nonempty (text : string) :
  text <> EmptyString -> file_lines text <> [].
Proof.
  induction text as [|c text IH]; intros H; [congruence|].
  rewrite file_lines_cons.
  destruct (Ascii.eqb c LF); [discriminate|].
  destruct (Ascii.eqb c CR).
  - destruct text as [|c' text']; [discriminate|].
    destruct (Ascii.eqb c' LF); [apply IH|]; discriminate.
  - destruct text as [|c' text']; [discriminate|].
    destruct (file_lines (String c' text')); discriminate.
Qed.

(** After a line terminator, the lines of the rest of the text follow
    the lines read so far. *)
Lemma file_lines_app (body text : string) :
  file_lines ((body ++ String LF EmptyString) ++ text) =
  (file_lines (body ++ String LF EmptyString) ++ file_lines text)%list.
Proof.
  induction body as [|c body IH].
  - cbn [append]. rewrite !file_lines_cons. cbn. reflexivity.
  - cbn [append]. rewrite !file_lines_cons.
    destruct (Ascii.eqb c LF); [rewrite IH; reflexivity|].
    assert (Hne : forall t, file_lines (String LF t) <> [])
      by (intros t; apply file_lines_nonempty; discriminate).
    assert (Hne' : forall c' t, file_lines (String c' t) <> [])
      by (intros c' t; apply file_lines_nonempty; discriminate).
    destruct body as [|c' body']; cbn [append] in *.
    + rewrite Ascii.eqb_refl.
      destruct (Ascii.eqb c CR); rewrite IH; [reflexivity|].
      destruct (file_lines (String LF EmptyString)) eqn:E;
        [destruct (Hne _ E) | reflexivity].
    + destruct (Ascii.eqb c CR).
      * destruct (Ascii.eqb c' LF); rewrite IH; reflexivity.
      * rewrite IH.
        destruct (file_lines (String c' (body' ++ String LF EmptyString))) eqn:E;
          [destruct (Hne' _ _ E) | reflexivity].
Qed.

(** ** Which line makes an extractor fail, and which lines count *)

Section ExtractorLines.

Context {float : Type} (float_of_string : string -> option float).

(** X5. [plot_energy] raises the exception of the first kept line whose
    field 3 is missing or no float literal; the lines after it are not
    examined. *)
Theorem plot_energy_first_failure (nb : notebook) (text line : string)
    (pre post : list string) (xs : list float) (e : exn) :
  files nb (log_path nb) = Some text ->
  file_lines text = (pre ++ line :: post)%list ->
  floats_at float_of_string 3 (filter energy_match pre) xs ->
  energy_match line = true ->
  float_field float_of_string 3 line = Raise e ->
  plot_energy float_of_string nb = Raise e.
Proof.
  intros Hf Hl Hpre Hm He. rewrite (plot_energy_open _ _ _ Hf), Hl.
  unfold plot_energy_lines.
  rewrite (list_comp_app _ _ pre (line :: post) xs).
  - cbn [list_comp energy_cond bind]. rewrite Hm.
    change (energy_value float_of_string line)
      with (float_field float_of_string 3 line).
    rewrite He. reflexivity.
  - apply list_comp_filter with (p := energy_match); [reflexivity | exact Hpre].
Qed.

Lemma append_distances_raise (pre post : list string) (m : string)
    (xs acc : list float) (e : exn) :
  floats_at float_of_string 6 pre xs ->
  float_field float_of_string 6 m = Raise e ->
  append_distances float_of_string (map split (pre ++ m :: post)) acc = Raise e.
Proof.
  intros Hpre He. revert acc.
  induction Hpre as [|l x pre xs Hl _ IH]; intros acc;
    cbn [app map append_distances].
  - unfold float_field in He.
    destruct (getitem (split m) 6) as [field|e'] eqn:Hg; cbn [bind] in *.
    + rewrite He. reflexivity.
    + inversion He. reflexivity.
  - destruct (float_field_inv _ _ _ _ Hl) as [field [-> Hx]]. cbn [bind].
    rewrite Hx. cbn [bind]. apply IH.
Qed.

(** X6. When the condition raises on no line, a first matching line
    whose field 3 is missing or no float literal makes [plot_R] raise
    the exception of that access. *)
Theorem plot_R_first_row_failure (nb : notebook) (a b : Z) (text first : string)
    (e : exn) :
  files nb (log_path nb) = Some text ->
  R_cond_safe (pair_notation a b) (file_lines text) ->
  hd_error (filter (R_match (pair_notation a b)) (file_lines text)) = Some first ->
  float_field float_of_string 3 first = Raise e ->
  plot_R float_of_string nb a b = Raise e.
Proof.
  intros Hf Hsafe Hhd He. rewrite (plot_R_open _ _ _ _ _ Hf).
  unfold plot_R_lines. rewrite rows_with_R_pairs_total.
  - destruct (filter (R_match (pair_notation a b)) (file_lines text))
      as [|m ms]; [discriminate|].
    inversion Hhd; subst. cbn [map getitem nth_error bind].
    unfold float_field in He.
    destruct (getitem (split first) 3) as [field|e'] eqn:Hg; cbn [bind] in *.
    + rewrite He. reflexivity.
    + inversion He. reflexivity.
  - intros line Hin. apply R_pair_cond_total. exact (Hsafe line Hin).
Qed.

(** X7. When the condition raises on no line and the first matching
    line has a float at field 3, the first matching line whose field 6
    is missing or no float literal makes [plot_R] raise the exception of
    that access. *)
Theorem plot_R_row_failure (nb : notebook) (a b : Z) (text m : string)
    (pre post : list string) (x0 : float) (xs : list float) (e : exn) :
  files nb (log_path nb) = Some text ->
  R_cond_safe (pair_notation a b) (file_lines text) ->
  filter (R_match (pair_notation a b)) (file_lines text) = (pre ++ m :: post)%list ->
  float_field float_of_string 3 (hd m pre) = Ok x0 ->
  floats_at float_of_string 6 pre xs ->
  float_field float_of_string 6 m = Raise e ->
  plot_R float_of_string nb a b = Raise e.
Proof.
  intros Hf Hsafe Hms H3 Hpre He. rewrite (plot_R_open _ _ _ _ _ Hf).
  unfold plot_R_lines. rewrite rows_with_R_pairs_total.
  - rewrite Hms. cbn [bind].
    assert (Hrow0 : getitem (map split (pre ++ m :: post)) 0 = Ok (split (hd m pre)))
      by (destruct pre; reflexivity).
    rewrite Hrow0. cbn [bind].
    destruct (float_field_inv _ _ _ _ H3) as [field [-> Hx]]. cbn [bind].
    rewrite Hx. cbn [bind].
    apply (append_distances_raise pre post m xs); assumption.
  - intros line Hin. apply R_pair_cond_total. exact (Hsafe line Hin).
Qed.

Lemma plot_R_lines_holds_token (tok : string) (lines : list string) :
  plot_R_lines float_of_string tok (filter (holds_token tok) lines) =
  plot_R_lines float_of_string tok lines.
Proof.
  unfold plot_R_lines, rows_with_R_pairs. rewrite list_comp_skip; [reflexivity|].
  intros line H. apply R_pair_cond_low. unfold holds_token in H.
  destruct (Z.ltb_spec 1 (find line tok)); [discriminate | assumption].
Qed.

(** X8. [plot_R] looks only at the lines that hold the token from
    character index 2 on: two logs with the same such lines, in the same
    order, give the same list or the same exception. *)
Theorem plot_R_ignores_other_lines (nb nb' : notebook) (a b : Z)
    (text text' : string) :
  files nb (log_path nb) = Some text ->
  files nb' (log_path nb') = Some text' ->
  filter (holds_token (pair_notation a b)) (file_lines text) =
  filter (holds_token (pair_notation a b)) (file_lines text') ->
  plot_R float_of_string nb a b = plot_R float_of_string nb' a b.
Proof.
  intros Hf Hf' Heq.
  rewrite (plot_R_open _ _ _ _ _ Hf), (plot_R_open _ _ _ _ _ Hf').
  rewrite <- (plot_R_lines_holds_token _ (file_lines text)).
  rewrite <- (plot_R_lines_holds_token _ (file_lines text')).
  rewrite Heq. reflexivity.
Qed.

(** X9. [plot_energy] looks only at the lines whose stripped content
    starts with "Current energy": two logs with the same such lines, in
    the same order, give the same list or the same exception. *)
Theorem plot_energy_ignores_other_lines (nb nb' : notebook) (text text' : string) :
  files nb (log_path nb) = Some text ->
  files nb' (log_path nb') = Some text' ->
  filter energy_match (file_lines text) = filter energy_match (file_lines text') ->
  plot_energy float_of_string nb = plot_energy float_of_string nb'.
Proof.
  intros Hf Hf' Heq.
  rewrite (plot_energy_open _ _ _ Hf), (plot_energy_open _ _ _ Hf').
  unfold plot_energy_lines.
  rewrite <- (list_comp_skip _ _ energy_match (file_lines text)),
          <- (list_comp_skip _ _ energy_match (file_lines text')).
  - rewrite Heq. reflexivity.
  - intros line H. unfold energy_cond. rewrite H. reflexivity.
  - intros line H. unfold energy_cond. rewrite H. reflexivity.
Qed.

(** X10. The energies of a log that continues another one, after a line
    terminator, are the energies of the first log followed by those of
    the continuation. *)
Theorem plot_energy_continued (nb1 nb2 nb12 : notebook) (text1 text2 : string)
    (xs1 xs2 : list float) :
  files nb1 (log_path nb1) = Some text1 ->
  files nb2 (log_path nb2) = Some text2 ->
  files nb12 (log_path nb12) = Some (text1 ++ text2) ->
  ends_with_newline text1 ->
  plot_energy float_of_string nb1 = Ok xs1 ->
  plot_energy float_of_string nb2 = Ok xs2 ->
  plot_energy float_of_string nb12 = Ok (xs1 ++ xs2)%list.
Proof.
  intros H1 H2 H12 [body ->] R1 R2.
  rewrite (plot_energy_open _ _ _ H1) in R1.
  rewrite (plot_energy_open _ _ _ H2) in R2.
  rewrite (plot_energy_open _ _ _ H12), file_lines_app.
  unfold plot_energy_lines in *.
  rewrite (list_comp_app _ _ _ _ xs1 R1), R2. reflexivity.
Qed.

(** X11. The distances of a log that continues another one, after a
    line terminator, are the distances of the first log followed by
    those of the continuation without its leading value. *)
Theorem plot_R_continued (nb1 nb2 nb12 : notebook) (a b : Z)
    (text1 text2 : string) (ys1 ys2 : list float) :
  files nb1 (log_path nb1) = Some text1 ->
  files nb2 (log_path nb2) = Some text2 ->
  files nb12 (log_path nb12) = Some (text1 ++ text2) ->
  ends_with_newline text1 ->
  plot_R float_of_string nb1 a b = Ok ys1 ->
  plot_R float_of_string nb2 a b = Ok ys2 ->
  plot_R float_of_string nb12 a b = Ok (ys1 ++ tl ys2)%list.
Proof.
  intros H1 H2 H12 [body ->] R1 R2.
  rewrite (plot_R_open _ _ _ _ _ H1) in R1.
  rewrite (plot_R_open _ _ _ _ _ H2) in R2.
  rewrite (plot_R_open _ _ _ _ _ H12), file_lines_app.
  apply plot_R_lines_inv in R1. apply plot_R_lines_inv in R2.
  destruct R1 as [S1 [f1 [r1 [x1 [xs1 [M1 [F1 [G1 ->]]]]]]]].
  destruct R2 as [S2 [f2 [r2 [x2 [xs2 [M2 [F2 [G2 ->]]]]]]]].
  cbn [tl app].
  apply (plot_R_lines_ok _ _ f1 _ (r1 ++ f2 :: r2)).
  - intros line Hin. apply in_app_or in Hin. destruct Hin; auto.
  - rewrite filter_app, M1, M2. reflexivity.
  - exact F1.
  - change (f1 :: r1 ++ f2 :: r2)%list with ((f1 :: r1) ++ f2 :: r2)%list.
    apply Forall2_app; assumption.
Qed.

End ExtractorLines.

(** X12. Every row that the comprehension of [plot_R] keeps has a field
    1 that starts with the token, and the rows are the fields of the
    matching lines in file order, so never more than the log has lines. *)
Theorem rows_with_R_pairs_rows (tok : string) (lines : list string)
    (rows : list (list string)) :
  rows_with_R_pairs tok lines = Ok rows ->
  rows = map split (filter (R_match tok) lines) /\
  Forall (fun row => exists field,
            nth_error row 1 = Some field /\ startswith field tok = true) rows /\
  (length rows <= length lines)%nat.
Proof.
  intros H.
  destruct (rows_with_R_pairs_cases tok lines) as [H'|H']; [|congruence].
  assert (Hrows : rows = map split (filter (R_match tok) lines)) by congruence.
  split; [exact Hrows|]. split.
  - rewrite Hrows. apply Forall_forall. intros row Hin.
    apply in_map_iff in Hin. destruct Hin as [line [<- Hline]].
    apply filter_In in Hline. destruct Hline as [_ Hm].
    apply R_match_spec in Hm. destruct Hm as [_ Hm].
    unfold second_field_startswith in Hm. rewrite split_strip in Hm.
    destruct (nth_error (split line) 1) as [field|]; [|discriminate].
    exists field. split; [reflexivity | exact Hm].
  - rewrite Hrows, length_map. apply filter_length_le.
Qed.

(** ** Tokens of different pairs *)

Lemma uint_chars (d : Decimal.uint) :
  string_forall int_char (NilEmpty.string_of_uint d) = true.
Proof. induction d; cbn [NilEmpty.string_of_uint string_forall]; auto. Qed.

(** [str] writes a sign and digits only. *)
Lemma str_chars (n : Z) : string_forall int_char (str n) = true.
Proof.
  unfold str, NilZero.string_of_int, NilZero.string_of_uint.
  destruct (Z.to_int n) as [d|d]; destruct d; try reflexivity;
    (apply (uint_chars (_ _))) || (cbn [string_forall]; apply (uint_chars (_ _))).
Qed.

(** [str] writes different integers differently. *)
Lemma str_inj (n m : Z) : str n = str m -> n = m.
Proof.
  intros H. apply DecimalZ.to_int_inj.
  assert (Hi : forall z, NilZero.int_of_string (str z) = Some (Z.to_int z)).
  { intros z. unfold str. apply NilZero.isi; destruct z; cbn; try discriminate;
      intros E; inversion E as [E1];
      exact (DecimalPos.Unsigned.to_uint_nonnil _ E1). }
  pose proof (Hi n) as Hn. rewrite H, Hi in Hn. congruence.
Qed.

Lemma prefix_cons (c d : ascii) (s t : string) :
  prefix (String c s) (String d t) = true -> c = d /\ prefix s t = true.
Proof.
  cbn [prefix]. destruct (ascii_dec c d); [auto | discriminate].
Qed.

(** Two texts written with characters of [p], each followed by the same
    delimiter outside [p]: when the first delimited text is a prefix of
    the second, the texts are equal. *)
Lemma prefix_delimited (p : ascii -> bool) (c : ascii) (s1 s2 r1 r2 : string) :
  p c = false ->
  string_forall p s1 = true -> string_forall p s2 = true ->
  prefix (s1 ++ String c r1) (s2 ++ String c r2) = true ->
  s1 = s2 /\ prefix r1 r2 = true.
Proof.
  intros Hc. revert s2.
  induction s1 as [|a s1 IH]; intros [|b s2] H1 H2 H; cbn [append] in H.
  - apply prefix_cons in H. tauto.
  - apply prefix_cons in H. destruct H as [<- _].
    cbn [string_forall] in H2. rewrite Hc in H2. discriminate.
  - apply prefix_cons in H. destruct H as [-> _].
    cbn [string_forall] in H1. rewrite Hc in H1. discriminate.
  - apply prefix_cons in H. destruct H as [<- H].
    cbn [string_forall] in H1, H2.
    apply andb_true_iff in H1. apply andb_true_iff in H2.
    destruct (IH s2 (proj2 H1) (proj2 H2) H) as [-> Hr]. auto.
Qed.

(** The token of a pair starts the token of another pair only when the
    pairs are the same. *)
Lemma pair_notation_prefix (a b a2 b2 : Z) :
  startswith (pair_notation a2 b2) (pair_notation a b) = true ->
  a = a2 /\ b = b2.
Proof.
  unfold startswith, pair_notation. cbn [append]. intros H.
  apply prefix_cons in H. destruct H as [_ H].
  apply prefix_cons in H. destruct H as [_ H].
  apply (prefix_delimited int_char) in H;
    [| reflexivity | apply str_chars | apply str_chars].
  destruct H as [Ha H].
  apply (prefix_delimited int_char) in H;
    [| reflexivity | apply str_chars | apply str_chars].
  destruct H as [Hb _].
  split; apply str_inj; assumption.
Qed.

(** X13. [plot_R(a, b)] never keeps a row whose field 1 is the token of
    another pair: when a kept line has the token of the pair (a2, b2) as
    field 1, then a2 = a and b2 = b. *)
Theorem R_match_other_pair (a b a2 b2 : Z) (line : string) :
  R_match (pair_notation a b) line = true ->
  nth_error (split line) 1 = Some (pair_notation a2 b2) ->
  a = a2 /\ b = b2.
Proof.
  intros Hm Hfield. apply R_match_spec in Hm. destruct Hm as [_ Hm].
  unfold second_field_startswith in Hm. rewrite split_strip, Hfield in Hm.
  apply pair_notation_prefix. exact Hm.
Qed.

(** ** The files of the notebook *)



(** ** The plotting cells *)

Section PlotCellProperties.

Context {float : Type} (float_of_string : string -> option float).
Context (fadd fsub fmul : float -> float -> float).
Context (fgt flt : float -> float -> bool) (f015 : float).










End PlotCellProperties.

(** ** The further properties on the sample logs *)

Lemma plot_R_at_least_two_witness :
  length [DecimalFloat.Finite false 1510 (-3);
          DecimalFloat.Finite false 1510 (-3);
          DecimalFloat.Finite false 1395 (-3)] =
    S (length (filter (R_match (pair_notation 1 2)) (file_lines optimization_log))) /\
  exists first x0 x1 tail,
    hd_error (filter (R_match (pair_notation 1 2)) (file_lines optimization_log)) =
      Some first /\
    float_field DecimalFloat.of_string 3 first = Ok x0 /\
    float_field DecimalFloat.of_string 6 first = Ok x1 /\
    [DecimalFloat.Finite false 1510 (-3);
     DecimalFloat.Finite false 1510 (-3);
     DecimalFloat.Finite false 1395 (-3)] = x0 :: x1 :: tail.
Proof.
  apply (plot_R_at_least_two DecimalFloat.of_string (benzene optimization_log) 1 2
           optimization_log); vm_compute; reflexivity.
Defined.

Lemma plot_energy_first_failure_witness :
  plot_energy DecimalFloat.of_string (benzene (energy1 ++ energy_unit ++ energy2)) =
  Raise ValueError.
Proof.
  apply (plot_energy_first_failure DecimalFloat.of_string
           (benzene (energy1 ++ energy_unit ++ energy2))
           (energy1 ++ energy_unit ++ energy2) energy_unit [energy1] [energy2]
           [DecimalFloat.Finite true 230712451 (-6)]).
  - reflexivity.
  - vm_compute. reflexivity.
  - vm_compute. repeat constructor.
  - vm_compute. reflexivity.
  - vm_compute. reflexivity.
Defined.

Lemma plot_R_first_row_failure_witness :
  plot_R DecimalFloat.of_string (benzene (header ++ row_cut3 ++ step2_R12)) 1 2 =
  Raise IndexError.
Proof.
  apply (plot_R_first_row_failure DecimalFloat.of_string
           (benzene (header ++ row_cut3 ++ step2_R12)) 1 2
           (header ++ row_cut3 ++ step2_R12) row_cut3).
  - reflexivity.
  - intros line Hin. each_line Hin; vm_compute; intros H;
      solve [discriminate H | repeat constructor].
  - vm_compute. reflexivity.
  - vm_compute. reflexivity.
Defined.

Lemma plot_R_row_failure_witness :
  plot_R DecimalFloat.of_string (benzene (step1_R12 ++ row_cut6 ++ step2_R12)) 1 2 =
  Raise IndexError.
Proof.
  apply (plot_R_row_failure DecimalFloat.of_string
           (benzene (step1_R12 ++ row_cut6 ++ step2_R12)) 1 2
           (step1_R12 ++ row_cut6 ++ step2_R12) row_cut6 [step1_R12] [step2_R12]
           (DecimalFloat.Finite false 1510 (-3))
           [DecimalFloat.Finite false 1510 (-3)]).
  - reflexivity.
  - intros line Hin. each_line Hin; vm_compute; intros H;
      solve [discriminate H | repeat constructor].
  - vm_compute. reflexivity.
  - vm_compute. reflexivity.
  - vm_compute. repeat constructor.
  - vm_compute. reflexivity.
Defined.

Lemma plot_R_ignores_other_lines_witness :
  plot_R DecimalFloat.of_string
    (benzene (header ++ step1_R12 ++ energy1 ++ step1_R16 ++ step2_R12)) 1 2 =
  plot_R DecimalFloat.of_string (benzene two_rows_log) 1 2.
Proof.
  apply (plot_R_ignores_other_lines DecimalFloat.of_string
           (benzene (header ++ step1_R12 ++ energy1 ++ step1_R16 ++ step2_R12))
           (benzene two_rows_log) 1 2
           (header ++ step1_R12 ++ energy1 ++ step1_R16 ++ step2_R12) two_rows_log);
    vm_compute; reflexivity.
Defined.

Lemma plot_energy_ignores_other_lines_witness :
  plot_energy DecimalFloat.of_string (benzene optimization_log) =
  plot_energy DecimalFloat.of_string (benzene (energy1 ++ energy2)).
Proof.
  apply (plot_energy_ignores_other_lines DecimalFloat.of_string
           (benzene optimization_log) (benzene (energy1 ++ energy2))
           optimization_log (energy1 ++ energy2));
    vm_compute; reflexivity.
Defined.

Lemma plot_energy_continued_witness :
  plot_energy DecimalFloat.of_string (benzene ((energy1 ++ energy2) ++ energy3)) =
  Ok ([DecimalFloat.Finite true 230712451 (-6);
       DecimalFloat.Finite true 230713021 (-6)] ++
      [DecimalFloat.Finite true 230713030 (-6)])%list.
Proof.
  apply (plot_energy_continued DecimalFloat.of_string
           (benzene (energy1 ++ energy2)) (benzene energy3)
           (benzene ((energy1 ++ energy2) ++ energy3))
           (energy1 ++ energy2) energy3).
  - reflexivity.
  - reflexivity.
  - reflexivity.
  - exists (energy1 ++ "Current energy =   -230.713021"). vm_compute. reflexivity.
  - vm_compute. reflexivity.
  - vm_compute. reflexivity.
Defined.

Lemma plot_R_continued_witness :
  plot_R DecimalFloat.of_string
    (benzene ((header ++ step1_R12) ++ (step2_R12 ++ energy1))) 1 2 =
  Ok ([DecimalFloat.Finite false 1510 (-3); DecimalFloat.Finite false 1510 (-3)] ++
      tl [DecimalFloat.Finite false 1510 (-3); DecimalFloat.Finite false 1395 (-3)])%list.
Proof.
  apply (plot_R_continued DecimalFloat.of_string
           (benzene (header ++ step1_R12)) (benzene (step2_R12 ++ energy1))
           (benzene ((header ++ step1_R12) ++ (step2_R12 ++ energy1))) 1 2
           (header ++ step1_R12) (step2_R12 ++ energy1)).
  - reflexivity.
  - reflexivity.
  - reflexivity.
  - exists (header ++
            "      1 R(1,2)          =      1.510     0.80416    -0.11500     1.510").
    vm_compute. reflexivity.
  - vm_compute. reflexivity.
  - vm_compute. reflexivity.
Defined.

Lemma rows_with_R_pairs_rows_witness :
  [split step1_R12; split step2_R12] =
    map split (filter (R_match (pair_notation 1 2)) (file_lines optimization_log)) /\
  Forall (fun row => exists field,
            nth_error row 1 = Some field /\
            startswith field (pair_notation 1 2) = true)
         [split step1_R12; split step2_R12] /\
  (length [split step1_R12; split step2_R12] <=
   length (file_lines optimization_log))%nat.
Proof.
  apply (rows_with_R_pairs_rows (pair_notation 1 2) (file_lines optimization_log)
           [split step1_R12; split step2_R12]).
  vm_compute. reflexivity.
Defined.

Lemma R_match_other_pair_witness : 1 = 1 /\ 2 = 2.
Proof.
  apply (R_match_other_pair 1 2 1 2 step1_R12); vm_compute; reflexivity.
Defined.



(** The cells on the sample run, and on a log without energy lines. *)
Example distance_cell_limits :
  option_map (fun d => (ylim_bottom d, ylim_top d))
    (match run_distance_cell (benzene optimization_log) with
     | Ok d => Some d
     | Raise _ => None
     end) =
  Some (DecimalFloat.Finite false 137775 (-5), DecimalFloat.Finite false 152725 (-5)).
Proof. vm_compute. reflexivity. Qed.

Example energy_cell_empty :
  run_energy_cell (benzene two_rows_log) = Raise ValueError.
Proof. vm_compute. reflexivity. Qed.

(** ** The call to [strip] in the condition of [plot_R] *)

(** X19. Stripping a line does not change its whitespace fields, so the
    condition of [plot_R] tests field 1 of the very row it keeps: it
    equals the condition written with [line.split()[1]]. *)
Theorem R_pair_cond_without_strip (tok line : string) :
  split (strip line) = split line /\
  R_pair_cond tok line =
  (if 1 <? find line tok
   then field <- getitem (split line) 1 ;; Ok (startswith field tok)
   else Ok false).
Proof.
  split; [apply split_strip|].
  unfold R_pair_cond. rewrite split_strip. reflexivity.
Qed.
